(** * MCM-Tools, main.py: resource resolution, icon handling and the canvas actions *)

From Stdlib Require Import Strings.String Strings.Ascii Lists.List Bool.Bool
  QArith Lia.
Import ListNotations.
Open Scope nat_scope.
Open Scope string_scope.

(* ------------------------------------------------------------------ *)
(** ** posixpath, as far as get_resource_path uses it *)

Module PosixPath.

Definition slash : ascii := "/"%char.

Definition startswith_sep (s : string) : bool :=
  match s with
  | String c _ => Ascii.eqb c slash
  | EmptyString => false
  end.

Fixpoint endswith_sep (s : string) : bool :=
  match s with
  | EmptyString => false
  | String c EmptyString => Ascii.eqb c slash
  | String _ r => endswith_sep r
  end.

(** [os.path.isabs] *)
Definition isabs (s : string) : bool := startswith_sep s.

(** [os.path.join(a, b)]:
    [if b.startswith(sep): path = b
     elif not path or path.endswith(sep): path += b
     else: path += sep + b] *)
Definition join (a b : string) : string :=
  if startswith_sep b then b
  else if String.eqb a "" || endswith_sep a then a ++ b
  else a ++ String slash EmptyString ++ b.

(** [path.split('/')] *)
Fixpoint split_sep_aux (cur : list ascii) (s : list ascii)
  : list (list ascii) :=
  match s with
  | [] => [rev cur]
  | c :: r =>
      if Ascii.eqb c slash then rev cur :: split_sep_aux [] r
      else split_sep_aux (c :: cur) r
  end.

Definition split_sep (s : list ascii) : list (list ascii) := split_sep_aux [] s.

(** ['/'.join(comps)] *)
Fixpoint join_sep (comps : list (list ascii)) : list ascii :=
  match comps with
  | [] => []
  | [c] => c
  | c :: r => app c (slash :: join_sep r)
  end.

Definition dot : list ascii := ["."%char].
Definition dotdot : list ascii := ["."%char; "."%char].

Definition list_ascii_eqb (a b : list ascii) : bool :=
  String.eqb (string_of_list_ascii a) (string_of_list_ascii b).

(** The loop of [normpath]: [new_comps] is kept reversed (its head is
    [new_comps[-1]]). *)
Fixpoint normpath_loop (initial_slashes : bool) (new_comps : list (list ascii))
    (comps : list (list ascii)) : list (list ascii) :=
  match comps with
  | [] => new_comps
  | comp :: r =>
      if list_ascii_eqb comp [] || list_ascii_eqb comp dot then
        normpath_loop initial_slashes new_comps r
      else if negb (list_ascii_eqb comp dotdot)
              || (negb initial_slashes && match new_comps with [] => true | _ => false end)
              || match new_comps with last :: _ => list_ascii_eqb last dotdot | [] => false end
      then normpath_loop initial_slashes (comp :: new_comps) r
      else match new_comps with
           | _ :: rest => normpath_loop initial_slashes rest r
           | [] => normpath_loop initial_slashes [] r
           end
  end.

Fixpoint repeat_slash (n : nat) : list ascii :=
  match n with O => [] | S k => slash :: repeat_slash k end.

(** [os.path.normpath]: one leading slash, two kept as they are, three or
    more collapsed to one. *)
Definition normpath (path : string) : string :=
  if String.eqb path "" then "."
  else
    let p := list_ascii_of_string path in
    let n_initial : nat :=
      match p with
      | a :: b :: c :: _ =>
          if Ascii.eqb a slash then
            if Ascii.eqb b slash && negb (Ascii.eqb c slash) then 2 else 1
          else 0
      | [a; b] =>
          if Ascii.eqb a slash then if Ascii.eqb b slash then 2 else 1 else 0
      | [a] => if Ascii.eqb a slash then 1 else 0
      | [] => 0
      end in
    let comps := rev (normpath_loop (Nat.ltb 0 n_initial) [] (split_sep p)) in
    let res := app (repeat_slash n_initial) (join_sep comps) in
    match res with
    | [] => "."
    | _ => string_of_list_ascii res
    end.

(** [os.path.abspath], with [os.getcwd()] passed explicitly. *)
Definition abspath (cwd path : string) : string :=
  normpath (if isabs path then path else join cwd path).

Fixpoint all_sep (s : list ascii) : bool :=
  match s with
  | [] => true
  | c :: r => Ascii.eqb c slash && all_sep r
  end.

Fixpoint rstrip_sep_rev (s : list ascii) : list ascii :=
  match s with
  | c :: r => if Ascii.eqb c slash then rstrip_sep_rev r else s
  | [] => []
  end.

(** [p[:p.rfind('/') + 1]], on the reversed characters. *)
Fixpoint head_rev (s : list ascii) : list ascii :=
  match s with
  | [] => []
  | c :: r => if Ascii.eqb c slash then s else head_rev r
  end.

(** [os.path.dirname]:
    [i = p.rfind(sep) + 1; head = p[:i]
     if head and head != sep*len(head): head = head.rstrip(sep)] *)
Definition dirname (p : string) : string :=
  let hr := head_rev (rev (list_ascii_of_string p)) in
  match hr with
  | [] => ""
  | _ => if all_sep hr then string_of_list_ascii (rev hr)
         else string_of_list_ascii (rev (rstrip_sep_rev hr))
  end.

End PosixPath.

(* ------------------------------------------------------------------ *)
(** ** The process environment read by get_resource_path *)

(** [meipass] is [Some d] exactly when [hasattr(sys, '_MEIPASS')] holds,
    [d] being [sys._MEIPASS]; [main_file] is the module's [__file__] and
    [cwd] the value [os.getcwd()] returns. *)
Record sysenv := mk_sysenv {
  meipass : option string;
  main_file : string;
  cwd : string
}.

(** [get_resource_path(relative_path)] as a function of the environment. *)
Definition resource_path (e : sysenv) (relative_path : string) : string :=
  let base_path :=
    match meipass e with
    | Some d => d
    | None => PosixPath.dirname (PosixPath.abspath (cwd e) (main_file e))
    end in
  PosixPath.join base_path relative_path.

(** [os.path.join("resources", "icon.ico")] *)
Definition icon_rel : string := PosixPath.join "resources" "icon.ico".

Example icon_rel_value : icon_rel = "resources/icon.ico".
Proof. reflexivity. Qed.

Example resource_path_packaged :
  resource_path (mk_sysenv (Some "/tmp/_MEI4711") "/home/u/MCM/main.py" "/")
    icon_rel = "/tmp/_MEI4711/resources/icon.ico".
Proof. reflexivity. Qed.

Example resource_path_source_relative :
  resource_path (mk_sysenv None "main.py" "/home/u/MCM") icon_rel
  = "/home/u/MCM/resources/icon.ico".
Proof. reflexivity. Qed.

Example resource_path_source_dots :
  resource_path (mk_sysenv None "../MCM/./main.py" "/home/u/x") icon_rel
  = "/home/u/MCM/resources/icon.ico".
Proof. reflexivity. Qed.

Example dirname_root : PosixPath.dirname "/main.py" = "/".
Proof. reflexivity. Qed.

(* ------------------------------------------------------------------ *)
(** ** The scene held by the QtInteractor canvas (pyvista) *)

(** [pv.Sphere(radius=r)]; the other arguments keep their defaults. *)
Inductive shape := Sphere (radius : Q).

Record mesh_actor := mk_mesh_actor {
  mshape : shape;
  mcolor : string;
  show_edges : bool;
  pbr : bool;
  opacity : Q
}.

Record text_actor := mk_text_actor {
  ttext : string;
  tposition : string;
  tcolor : string
}.

(** [reset_camera] frames the bounds of the meshes in the scene. *)
Inductive camera :=
  | CamDefault
  | CamFramed (bounds : list shape).

Record scene := mk_scene {
  meshes : list mesh_actor;
  axes : bool;
  texts : list text_actor;
  background : string;
  camera_of : camera
}.

(** The canvas as [QtInteractor(self)] creates it. *)
Definition fresh_scene : scene :=
  mk_scene [] false [] "theme_default" CamDefault.

(** Calls made on the plotter, and the other observable actions. *)
Inductive plotter_call :=
  | PClear
  | PSetBackground (c : string)
  | PAddAxes
  | PAddMesh (m : mesh_actor)
  | PAddText (t : text_actor)
  | PResetCamera
  | PClose.

Inductive event :=
  | EvPlotter (c : plotter_call)
  | EvNewSphere (radius : Q)
  | EvPrint (msg : string)
  | EvAccept.

(** Effect of each plotter call on the scene.  [clear] removes every actor
    (meshes, text, axes marker) and leaves background and camera alone. *)
Definition scene_step (c : plotter_call) (sc : scene) : scene :=
  match c with
  | PClear => mk_scene [] false [] (background sc) (camera_of sc)
  | PSetBackground col =>
      mk_scene (meshes sc) (axes sc) (texts sc) col (camera_of sc)
  | PAddAxes => mk_scene (meshes sc) true (texts sc) (background sc) (camera_of sc)
  | PAddMesh m =>
      mk_scene (meshes sc ++ [m]) (axes sc) (texts sc) (background sc) (camera_of sc)
  | PAddText t =>
      mk_scene (meshes sc) (axes sc) (texts sc ++ [t]) (background sc) (camera_of sc)
  | PResetCamera =>
      mk_scene (meshes sc) (axes sc) (texts sc) (background sc)
        (CamFramed (map mshape (meshes sc)))
  | PClose => sc
  end.

(* ------------------------------------------------------------------ *)
(** ** Process state and the effect monad *)

Record st := mk_st {
  sys : sysenv;                 (* sys._MEIPASS, __file__, os.getcwd() *)
  fs : list string;             (* paths for which os.path.exists holds *)
  trace : list event;           (* plotter calls, prints, event.accept() *)
  app_style : option string;
  app_icon : option string;
  win_title : option string;
  win_size : option (nat * nat);
  win_icon : option string;
  plotter : scene;              (* self.plotter, created by init_ui *)
  plotter_closed : bool
}.

Inductive exn := AttributeError (name : string).

Inductive res (A : Type) := Ok (a : A) | Raise (e : exn).
Arguments Ok {A} a.
Arguments Raise {A} e.

Definition M (A : Type) := st -> res A * st.

Definition ret {A} (a : A) : M A := fun s => (Ok a, s).

Definition bind {A B} (m : M A) (k : A -> M B) : M B :=
  fun s => match m s with
           | (Ok a, s') => k a s'
           | (Raise e, s') => (Raise e, s')
           end.

Notation "x <- m ;; k" := (bind m (fun x => k))
  (at level 61, m at next level, right associativity).
Notation "m ;; k" := (bind m (fun _ : unit => k))
  (at level 61, right associativity).

Definition modify (f : st -> st) : M unit := fun s => (Ok tt, f s).
Definition gets {A} (f : st -> A) : M A := fun s => (Ok (f s), s).

Definition emit (ev : event) : M unit :=
  modify (fun s => mk_st (sys s) (fs s) (trace s ++ [ev]) (app_style s)
    (app_icon s) (win_title s) (win_size s) (win_icon s) (plotter s)
    (plotter_closed s)).

Definition set_app_style (x : string) : M unit :=
  modify (fun s => mk_st (sys s) (fs s) (trace s) (Some x) (app_icon s)
    (win_title s) (win_size s) (win_icon s) (plotter s) (plotter_closed s)).

Definition set_app_icon (p : string) : M unit :=
  modify (fun s => mk_st (sys s) (fs s) (trace s) (app_style s) (Some p)
    (win_title s) (win_size s) (win_icon s) (plotter s) (plotter_closed s)).

Definition set_win_title (x : string) : M unit :=
  modify (fun s => mk_st (sys s) (fs s) (trace s) (app_style s) (app_icon s)
    (Some x) (win_size s) (win_icon s) (plotter s) (plotter_closed s)).

Definition set_win_size (w h : nat) : M unit :=
  modify (fun s => mk_st (sys s) (fs s) (trace s) (app_style s) (app_icon s)
    (win_title s) (Some (w, h)) (win_icon s) (plotter s) (plotter_closed s)).

Definition set_win_icon (p : string) : M unit :=
  modify (fun s => mk_st (sys s) (fs s) (trace s) (app_style s) (app_icon s)
    (win_title s) (win_size s) (Some p) (plotter s) (plotter_closed s)).

Definition set_plotter (sc : scene) (closed : bool) : M unit :=
  modify (fun s => mk_st (sys s) (fs s) (trace s) (app_style s) (app_icon s)
    (win_title s) (win_size s) (win_icon s) sc closed).

(** [print(msg)] *)
Definition print (msg : string) : M unit := emit (EvPrint msg).

(** A method call on [self.plotter]: recorded, then applied to the scene. *)
Definition plotter_do (c : plotter_call) : M unit :=
  emit (EvPlotter c) ;;
  sc <- gets plotter ;;
  closed <- gets plotter_closed ;;
  set_plotter (scene_step c sc) (match c with PClose => true | _ => closed end).

(** [os.path.exists(p)] *)
Definition os_path_exists (p : string) : M bool :=
  gets (fun s => existsb (String.eqb p) (fs s)).

(** [hasattr(sys, '_MEIPASS')] and [sys._MEIPASS] *)
Definition hasattr_sys_MEIPASS : M bool :=
  gets (fun s => match meipass (sys s) with Some _ => true | None => false end).

Definition sys_MEIPASS : M string :=
  fun s => match meipass (sys s) with
           | Some d => (Ok d, s)
           | None => (Raise (AttributeError "_MEIPASS"), s)
           end.

Definition dunder_file : M string := gets (fun s => main_file (sys s)).
Definition os_getcwd : M string := gets (fun s => cwd (sys s)).

(* ------------------------------------------------------------------ *)
(** ** main.py *)

(** [get_resource_path(relative_path)] *)
Definition get_resource_path (relative_path : string) : M string :=
  has <- hasattr_sys_MEIPASS ;;
  base_path <- (if has then sys_MEIPASS
                else f <- dunder_file ;;
                     c <- os_getcwd ;;
                     ret (PosixPath.dirname (PosixPath.abspath c f))) ;;
  ret (PosixPath.join base_path relative_path).

Definition icon_warning (icon_path : string) : string :=
  "⚠️ Warning: Icon not found at " ++ icon_path.

(** [MainWindow.__init__], steps 1 and 2 *)
Definition win_base_setup : M unit :=
  set_win_title "MCM Visualization Tool (Powered by PySide6 & PyVista)" ;;
  set_win_size 1200 800.

Definition win_icon_setup : M unit :=
  icon_path <- get_resource_path icon_rel ;;
  ex <- os_path_exists icon_path ;;
  if ex then set_win_icon icon_path
  else print (icon_warning icon_path).

(** [MainWindow.init_ui]; the sidebar widgets (labels, buttons, layout)
    carry no state the program reads back and are left out, the button
    bindings are [on_click] below. *)
Definition init_ui : M unit :=
  set_plotter fresh_scene false ;;
  plotter_do (PSetBackground "white") ;;
  plotter_do PAddAxes ;;
  plotter_do (PAddText (mk_text_actor "Ready for Data..." "upper_left" "black")).

(** [MainWindow.__init__] *)
Definition MainWindow_init : M unit :=
  win_base_setup ;;
  win_icon_setup ;;
  init_ui.

(** [pv.Sphere(radius=r)] *)
Definition pv_Sphere (r : Q) : M shape :=
  emit (EvNewSphere r) ;; ret (Sphere r).

(** [MainWindow.plot_sphere] *)
Definition plot_sphere : M unit :=
  plotter_do PClear ;;
  plotter_do PAddAxes ;;
  sphere <- pv_Sphere (1 # 2) ;;
  plotter_do (PAddMesh (mk_mesh_actor sphere "orange" true false (8 # 10))) ;;
  plotter_do (PAddText (mk_text_actor "Model: 3D Sphere" "upper_left" "black")) ;;
  plotter_do PResetCamera ;;
  print "✅ 成功绘制球体".

(** [MainWindow.clear_plot] *)
Definition clear_plot : M unit :=
  plotter_do PClear ;;
  plotter_do (PSetBackground "white") ;;
  plotter_do PAddAxes ;;
  print "🧹 画布已清空".

(** [MainWindow.closeEvent(event)] *)
Definition closeEvent : M unit :=
  plotter_do PClose ;;
  emit EvAccept.

(** The two buttons, as bound in [init_ui] by [clicked.connect]. *)
Inductive button := BtnSphere | BtnClear.

Definition on_click (b : button) : M unit :=
  match b with
  | BtnSphere => plot_sphere
  | BtnClear => clear_plot
  end.

(** Events the Qt event loop dispatches to the window. *)
Inductive ui_event := Click (b : button) | CloseRequest.

(** [app.exec()]: callbacks run one at a time to completion; after an
    accepted close the last window is gone and the loop ends. *)
Fixpoint app_exec (evs : list ui_event) : M unit :=
  match evs with
  | [] => ret tt
  | Click b :: rest => on_click b ;; app_exec rest
  | CloseRequest :: _ => closeEvent
  end.

(** The [__main__] block up to the window's creation. *)
Definition app_setup : M unit :=
  set_app_style "Fusion" ;;
  app_icon_path <- get_resource_path icon_rel ;;
  ex <- os_path_exists app_icon_path ;;
  if ex then set_app_icon app_icon_path else ret tt.

(** The [__main__] block; [window.show()] has no state modelled here. *)
Definition main_prog (evs : list ui_event) : M unit :=
  app_setup ;;
  MainWindow_init ;;
  app_exec evs.

(** Running a sequence of button clicks. *)
Fixpoint run_clicks (bs : list button) : M unit :=
  match bs with
  | [] => ret tt
  | b :: rest => on_click b ;; run_clicks rest
  end.

(* Sample states *)
Definition env_src : sysenv := mk_sysenv None "/home/u/MCM/main.py" "/home/u".
Definition st0 (e : sysenv) (files : list string) : st :=
  mk_st e files [] None None None None None fresh_scene false.

Example main_with_icon :
  snd (main_prog [] (st0 env_src ["/home/u/MCM/resources/icon.ico"])) =
  mk_st env_src ["/home/u/MCM/resources/icon.ico"]
    [EvPlotter (PSetBackground "white"); EvPlotter PAddAxes;
     EvPlotter (PAddText (mk_text_actor "Ready for Data..." "upper_left" "black"))]
    (Some "Fusion") (Some "/home/u/MCM/resources/icon.ico")
    (Some "MCM Visualization Tool (Powered by PySide6 & PyVista)")
    (Some (1200, 800)) (Some "/home/u/MCM/resources/icon.ico")
    (mk_scene [] true [mk_text_actor "Ready for Data..." "upper_left" "black"]
       "white" CamDefault) false.
Proof. reflexivity. Qed.

(* ------------------------------------------------------------------ *)
(** ** Fixed values of the two actions *)

Definition sphere_actor : mesh_actor :=
  mk_mesh_actor (Sphere (1 # 2)) "orange" true false (8 # 10).

Definition sphere_text : text_actor :=
  mk_text_actor "Model: 3D Sphere" "upper_left" "black".

Definition ready_text : text_actor :=
  mk_text_actor "Ready for Data..." "upper_left" "black".

Definition sphere_scene (bg : string) : scene :=
  mk_scene [sphere_actor] true [sphere_text] bg (CamFramed [Sphere (1 # 2)]).

Definition initial_scene : scene :=
  mk_scene [] true [ready_text] "white" CamDefault.

Definition plot_sphere_events : list event :=
  [EvPlotter PClear; EvPlotter PAddAxes; EvNewSphere (1 # 2);
   EvPlotter (PAddMesh sphere_actor); EvPlotter (PAddText sphere_text);
   EvPlotter PResetCamera; EvPrint "✅ 成功绘制球体"].

Definition clear_plot_events : list event :=
  [EvPlotter PClear; EvPlotter (PSetBackground "white"); EvPlotter PAddAxes;
   EvPrint "🧹 画布已清空"].

Definition init_ui_events : list event :=
  [EvPlotter (PSetBackground "white"); EvPlotter PAddAxes;
   EvPlotter (PAddText ready_text)].

(** State with a new trace and canvas, everything else kept. *)
Definition with_canvas (s : st) (tr : list event) (sc : scene) (closed : bool) : st :=
  mk_st (sys s) (fs s) tr (app_style s) (app_icon s) (win_title s)
    (win_size s) (win_icon s) sc closed.

(** The base directory get_resource_path selects, as the spec names it:
    the extraction directory in packaged mode, else the directory holding
    the entry script. *)
Definition script_dir (e : sysenv) : string :=
  PosixPath.dirname (PosixPath.abspath (cwd e) (main_file e)).

Definition run_mode_base (e : sysenv) : string :=
  match meipass e with
  | Some extraction_dir => extraction_dir
  | None => script_dir e
  end.

(** The separator [os.path.join] puts between a base and a relative path. *)
Definition sep_after (b : string) : string :=
  if String.eqb b "" || PosixPath.endswith_sep b then "" else "/".

(** Click sequences: the last click, and the mode it leaves. *)
Fixpoint last_click (bs : list button) : option button :=
  match bs with
  | [] => None
  | [b] => Some b
  | _ :: rest => last_click rest
  end.

Inductive mode := Empty | ShowingSphere.

Definition mode_of (sc : scene) : option mode :=
  match meshes sc with
  | [] => Some Empty
  | [m] => if Qeq_bool (opacity m) (8 # 10) && Bool.eqb (show_edges m) true
              && String.eqb (mcolor m) "orange"
              && match mshape m with Sphere r => Qeq_bool r (1 # 2) end
           then Some ShowingSphere else None
  | _ => None
  end.

Definition mode_after (bs : list button) : mode :=
  match last_click bs with
  | Some BtnSphere => ShowingSphere
  | _ => Empty
  end.

(** Number of plotter.close() calls in a trace. *)
Definition is_close (ev : event) : bool :=
  match ev with EvPlotter PClose => true | _ => false end.

Definition count_close (tr : list event) : nat := length (filter is_close tr).

(** An M action that leaves the environment read by get_resource_path as
    it is. *)
Definition keeps_sys {A} (m : M A) : Prop := forall s, sys (snd (m s)) = sys s.

(* ------------------------------------------------------------------ *)
(** ** Equations of the operations *)

Lemma get_resource_path_eq (rel : string) (s : st) :
  get_resource_path rel s = (Ok (resource_path (sys s) rel), s).
Proof.
  destruct s as [[[d|] f c] ? ? ? ? ? ? ? ? ?]; reflexivity.
Qed.

Lemma plot_sphere_eq (s : st) :
  plot_sphere s =
  (Ok tt, with_canvas s (trace s ++ plot_sphere_events)
            (sphere_scene (background (plotter s))) (plotter_closed s)).
Proof.
  destruct s as [? ? tr ? ? ? ? ? [ms ax tx bg cam] cl]; cbn.
  unfold print, emit, modify, with_canvas; cbn.
  rewrite <- !app_assoc. reflexivity.
Qed.

Lemma clear_plot_eq (s : st) :
  clear_plot s =
  (Ok tt, with_canvas s (trace s ++ clear_plot_events)
            (mk_scene [] true [] "white" (camera_of (plotter s)))
            (plotter_closed s)).
Proof.
  destruct s as [? ? tr ? ? ? ? ? [ms ax tx bg cam] cl]; cbn.
  unfold print, emit, modify, with_canvas; cbn.
  rewrite <- !app_assoc. reflexivity.
Qed.

Lemma closeEvent_eq (s : st) :
  closeEvent s =
  (Ok tt, with_canvas s (trace s ++ [EvPlotter PClose; EvAccept])
            (plotter s) true).
Proof.
  destruct s as [? ? tr ? ? ? ? ? [ms ax tx bg cam] cl]; cbn.
  unfold print, emit, modify, with_canvas; cbn.
  rewrite <- !app_assoc. reflexivity.
Qed.

Lemma init_ui_eq (s : st) :
  init_ui s = (Ok tt, with_canvas s (trace s ++ init_ui_events) initial_scene false).
Proof.
  destruct s; cbn. unfold emit, modify, with_canvas; cbn.
  rewrite <- !app_assoc. reflexivity.
Qed.

(** The icon resolved by MainWindow.__init__ and by the __main__ block. *)
Definition icon_path_of (s : st) : string := resource_path (sys s) icon_rel.

Definition icon_exists (s : st) : bool :=
  existsb (String.eqb (icon_path_of s)) (fs s).

Lemma win_icon_setup_eq (s : st) :
  win_icon_setup s =
  (Ok tt,
   if icon_exists s
   then mk_st (sys s) (fs s) (trace s) (app_style s) (app_icon s)
          (win_title s) (win_size s) (Some (icon_path_of s)) (plotter s)
          (plotter_closed s)
   else with_canvas s (trace s ++ [EvPrint (icon_warning (icon_path_of s))])
          (plotter s) (plotter_closed s)).
Proof.
  unfold win_icon_setup. cbv [bind]. rewrite get_resource_path_eq.
  unfold icon_exists, icon_path_of, os_path_exists, gets.
  destruct (existsb _ _); reflexivity.
Qed.

Lemma MainWindow_init_eq (s : st) :
  exists s',
    MainWindow_init s = (Ok tt, s') /\
    plotter s' = initial_scene /\
    plotter_closed s' = false /\
    sys s' = sys s /\ fs s' = fs s /\ app_icon s' = app_icon s /\
    icon_path_of s' = icon_path_of s /\
    win_icon s' = (if icon_exists s then Some (icon_path_of s) else win_icon s) /\
    trace s' = (trace s ++
      (if icon_exists s then [] else [EvPrint (icon_warning (icon_path_of s))])
      ++ init_ui_events)%list.
Proof.
  unfold MainWindow_init. cbv [bind].
  set (s1 := snd (win_base_setup s)).
  replace (win_base_setup s) with (Ok tt, s1) by (destruct s; reflexivity).
  rewrite win_icon_setup_eq.
  replace (icon_exists s1) with (icon_exists s) by (destruct s; reflexivity).
  replace (icon_path_of s1) with (icon_path_of s) by (destruct s; reflexivity).
  destruct (icon_exists s); rewrite init_ui_eq; eexists; split; try reflexivity;
    subst s1; destruct s; cbn; repeat split; try reflexivity.
  rewrite <- app_assoc; reflexivity.
Qed.

Lemma app_setup_eq (s : st) :
  app_setup s =
  (Ok tt,
   mk_st (sys s) (fs s) (trace s) (Some "Fusion")
     (if icon_exists s then Some (icon_path_of s) else app_icon s)
     (win_title s) (win_size s) (win_icon s) (plotter s) (plotter_closed s)).
Proof.
  unfold app_setup. cbv [bind].
  set (s1 := snd (set_app_style "Fusion" s)).
  replace (set_app_style "Fusion" s) with (Ok tt, s1) by reflexivity.
  rewrite get_resource_path_eq.
  unfold icon_exists, icon_path_of, os_path_exists, gets.
  subst s1. destruct s; cbn. destruct (existsb _ _); reflexivity.
Qed.

Lemma keeps_sys_bind {A B} (m : M A) (k : A -> M B) :
  keeps_sys m -> (forall a, keeps_sys (k a)) -> keeps_sys (bind m k).
Proof.
  intros Hm Hk s. unfold bind. specialize (Hm s).
  destruct (m s) as [[a|e] s'] eqn:E; cbn in *.
  - rewrite Hk. exact Hm.
  - exact Hm.
Qed.

Lemma keeps_sys_ret {A} (a : A) : keeps_sys (ret a).
Proof. intros s; reflexivity. Qed.

Lemma keeps_sys_app_setup : keeps_sys app_setup.
Proof. intros s. rewrite app_setup_eq. reflexivity. Qed.

Lemma keeps_sys_MainWindow_init : keeps_sys MainWindow_init.
Proof.
  intros s. destruct (MainWindow_init_eq s) as (s' & -> & _ & _ & Hs & _).
  exact Hs.
Qed.

Lemma keeps_sys_on_click (b : button) : keeps_sys (on_click b).
Proof.
  intros s. destruct b; cbn [on_click].
  - rewrite plot_sphere_eq. reflexivity.
  - rewrite clear_plot_eq. reflexivity.
Qed.

Lemma keeps_sys_closeEvent : keeps_sys closeEvent.
Proof. intros s. rewrite closeEvent_eq. reflexivity. Qed.

Create HintDb procenv.
#[local] Hint Resolve keeps_sys_bind keeps_sys_ret keeps_sys_app_setup
  keeps_sys_MainWindow_init keeps_sys_on_click keeps_sys_closeEvent : procenv.

Lemma keeps_sys_app_exec (evs : list ui_event) : keeps_sys (app_exec evs).
Proof.
  induction evs as [|[b|] rest IH]; cbn [app_exec]; eauto with procenv.
Qed.

Lemma keeps_sys_main_prog (evs : list ui_event) : keeps_sys (main_prog evs).
Proof.
  unfold main_prog. pose proof (keeps_sys_app_exec evs). eauto with procenv.
Qed.

Lemma last_click_cons (b : button) (l : list button) :
  last_click (b :: l) <> None.
Proof.
  revert b. induction l as [|b' l IH]; intros b; cbn; [discriminate|].
  exact (IH b').
Qed.

Lemma run_clicks_scene (bs : list button) (s : st) :
  background (plotter s) = "white" ->
  exists s2,
    run_clicks bs s = (Ok tt, s2) /\
    background (plotter s2) = "white" /\
    match last_click bs with
    | None => s2 = s
    | Some BtnSphere => plotter s2 = sphere_scene "white"
    | Some BtnClear => exists cam, plotter s2 = mk_scene [] true [] "white" cam
    end.
Proof.
  revert s. induction bs as [|b rest IH]; intros s Hbg.
  - exists s. repeat split; assumption.
  - cbn [run_clicks]. unfold bind at 1.
    set (s1 := snd (on_click b s)).
    assert (E1 : on_click b s = (Ok tt, s1)).
    { subst s1; destruct b; cbn [on_click];
        [rewrite plot_sphere_eq | rewrite clear_plot_eq]; reflexivity. }
    assert (Hbg1 : background (plotter s1) = "white").
    { subst s1; destruct b; cbn [on_click];
        [rewrite plot_sphere_eq | rewrite clear_plot_eq]; cbn; exact Hbg || reflexivity. }
    rewrite E1. destruct rest as [|b' rest'].
    + exists s1. cbn. split; [reflexivity|]. split; [exact Hbg1|].
      subst s1; destruct b; cbn [on_click];
        [rewrite plot_sphere_eq | rewrite clear_plot_eq]; cbn.
      * rewrite Hbg. reflexivity.
      * eexists. reflexivity.
    + destruct (IH s1 Hbg1) as (s2 & E2 & Hbg2 & Hlast).
      exists s2. split; [exact E2|]. split; [exact Hbg2|].
      change (last_click (b :: b' :: rest')) with (last_click (b' :: rest')).
      destruct (last_click (b' :: rest')) as [[|]|] eqn:El; try exact Hlast.
      exfalso. exact (last_click_cons b' rest' El).
Qed.

(* ------------------------------------------------------------------ *)
(** ** Resource resolution *)

(** C1: for a relative path, get_resource_path returns the path joined onto
    the base selected by run mode: the extraction directory [sys._MEIPASS]
    when that attribute exists, the directory of the entry script
    ([dirname(abspath(__file__))]) otherwise; it does not raise and changes
    nothing. *)
Theorem get_resource_path_mode_base (s : st) (rel : string)
    (Hrel : PosixPath.isabs rel = false) :
  get_resource_path rel s =
  (Ok (run_mode_base (sys s) ++ sep_after (run_mode_base (sys s)) ++ rel), s).
Proof.
  rewrite get_resource_path_eq. f_equal. f_equal.
  unfold resource_path, run_mode_base, script_dir, sep_after, PosixPath.join.
  unfold PosixPath.isabs in Hrel. rewrite Hrel.
  destruct (meipass (sys s)) as [d|];
    match goal with |- context [if ?c then _ else _] => destruct c end;
    reflexivity.
Qed.

Lemma get_resource_path_mode_base_witness :
  PosixPath.isabs icon_rel = false /\
  get_resource_path icon_rel (st0 env_src []) =
  (Ok "/home/u/MCM/resources/icon.ico", st0 env_src []).
Proof.
  split; [reflexivity|].
  rewrite (get_resource_path_mode_base (st0 env_src []) icon_rel eq_refl).
  reflexivity.
Defined.

(* ------------------------------------------------------------------ *)
(** ** The two canvas actions *)

(** C3: plot_sphere is idempotent on the scene: from every state, a second
    call leaves meshes, axes, text, background and camera as the first did. *)
Theorem plot_sphere_idempotent_scene (s : st) :
  plotter (snd (plot_sphere (snd (plot_sphere s)))) =
  plotter (snd (plot_sphere s)).
Proof.
  rewrite (plot_sphere_eq s), plot_sphere_eq. reflexivity.
Qed.

(** C4: plot_sphere takes no arguments and never raises; it clears the
    scene, re-adds the axes, constructs one sphere of radius 0.5, adds it
    orange, with opacity 0.8 and with edges shown, replaces the status
    text, and resets the camera onto the new content, in that order. *)
Theorem plot_sphere_sequence (s : st) :
  exists s',
    plot_sphere s = (Ok tt, s') /\
    trace s' = (trace s ++
      [EvPlotter PClear; EvPlotter PAddAxes; EvNewSphere (1 # 2);
       EvPlotter (PAddMesh sphere_actor); EvPlotter (PAddText sphere_text);
       EvPlotter PResetCamera; EvPrint "✅ 成功绘制球体"])%list /\
    mshape sphere_actor = Sphere (1 # 2) /\
    mcolor sphere_actor = "orange" /\
    show_edges sphere_actor = true /\
    (0 < opacity sphere_actor < 1)%Q /\
    meshes (plotter s') = [sphere_actor] /\
    axes (plotter s') = true /\
    texts (plotter s') = [sphere_text] /\
    camera_of (plotter s') = CamFramed (map mshape (meshes (plotter s'))).
Proof.
  rewrite plot_sphere_eq. eexists. split; [reflexivity|].
  cbn. repeat split; try reflexivity.
Qed.

(** C5: after clear_plot, from any state, the scene holds no mesh, the
    background is white and the axes are shown. *)
Theorem clear_plot_post (s : st) :
  fst (clear_plot s) = Ok tt /\
  meshes (plotter (snd (clear_plot s))) = [] /\
  background (plotter (snd (clear_plot s))) = "white" /\
  axes (plotter (snd (clear_plot s))) = true.
Proof.
  rewrite clear_plot_eq. cbn. repeat split.
Qed.

(** C9: plot_sphere leaves the background color as it found it; among the
    actions only init_ui and clear_plot set it (to white). *)
Theorem plot_sphere_keeps_background (s : st) :
  background (plotter (snd (plot_sphere s))) = background (plotter s).
Proof.
  rewrite plot_sphere_eq. reflexivity.
Qed.

(** C10: after clear_plot no status text is on the canvas, while the freshly
    constructed window shows "Ready for Data..." at the upper left; so the
    cleared scene is never the initial one. *)
Theorem clear_plot_removes_text (s s0 : st) :
  texts (plotter (snd (clear_plot s))) = [] /\
  texts (plotter (snd (MainWindow_init s0))) = [ready_text] /\
  tposition ready_text = "upper_left" /\
  plotter (snd (clear_plot s)) <> plotter (snd (MainWindow_init s0)).
Proof.
  destruct (MainWindow_init_eq s0) as (s1 & -> & Hp & _). cbn [snd].
  rewrite Hp, clear_plot_eq. cbn. repeat split.
  intros Heq. discriminate Heq.
Qed.

(* ------------------------------------------------------------------ *)
(** ** Shutdown *)

(** C7: each close request calls plotter.close() exactly once, before
    event.accept(), and does not raise. *)
Theorem closeEvent_releases_once (s : st) :
  exists s',
    closeEvent s = (Ok tt, s') /\
    trace s' = (trace s ++ [EvPlotter PClose; EvAccept])%list /\
    count_close [EvPlotter PClose; EvAccept] = 1 /\
    plotter_closed s' = true.
Proof.
  rewrite closeEvent_eq. eexists. repeat split.
Qed.

(* ------------------------------------------------------------------ *)
(** ** Missing icon *)

(** A source run whose icon file is absent. *)
Definition st_no_icon : st := st0 env_src [].

(** C2, as stated, fails: with the icon file absent, the application-level
    assignment in the __main__ block prints nothing; it has no else
    branch. *)
Lemma app_level_missing_icon_silent :
  icon_exists st_no_icon = false /\
  ~ (exists msg, In (EvPrint msg) (trace (snd (app_setup st_no_icon)))).
Proof.
  split; [reflexivity|].
  rewrite app_setup_eq. cbn. intros (msg & []).
Qed.

(** C2, amended: when the resolved icon path does not exist, neither the
    application-level nor the window-level assignment sets an icon and
    neither raises; the application-level step prints nothing, and
    MainWindow.__init__ prints one warning naming the path and then builds
    the canvas as usual. *)
Theorem missing_icon_warns_once (s : st) (Hmiss : icon_exists s = false) :
  exists s1 s2,
    app_setup s = (Ok tt, s1) /\
    app_icon s1 = app_icon s /\
    trace s1 = trace s /\
    MainWindow_init s1 = (Ok tt, s2) /\
    win_icon s2 = win_icon s /\
    plotter s2 = initial_scene /\
    trace s2 = (trace s ++ EvPrint (icon_warning (icon_path_of s)) :: init_ui_events)%list.
Proof.
  rewrite app_setup_eq, Hmiss.
  set (s1 := mk_st (sys s) (fs s) (trace s) (Some "Fusion") (app_icon s)
               (win_title s) (win_size s) (win_icon s) (plotter s)
               (plotter_closed s)).
  assert (Hx : icon_exists s1 = false) by exact Hmiss.
  assert (Hp : icon_path_of s1 = icon_path_of s) by reflexivity.
  destruct (MainWindow_init_eq s1)
    as (s2 & E2 & Hsc & _ & _ & _ & _ & _ & Hwi & Htr).
  rewrite Hx in Hwi, Htr. rewrite Hp in Htr.
  exists s1, s2. repeat split; try assumption.
Qed.

Lemma missing_icon_warns_once_witness :
  icon_exists st_no_icon = false /\
  exists s1 s2,
    app_setup st_no_icon = (Ok tt, s1) /\
    app_icon s1 = app_icon st_no_icon /\
    trace s1 = trace st_no_icon /\
    MainWindow_init s1 = (Ok tt, s2) /\
    win_icon s2 = win_icon st_no_icon /\
    plotter s2 = initial_scene /\
    trace s2 = (trace st_no_icon ++
      EvPrint (icon_warning (icon_path_of st_no_icon)) :: init_ui_events)%list.
Proof.
  split; [reflexivity|].
  apply (missing_icon_warns_once st_no_icon). reflexivity.
Defined.

(* ------------------------------------------------------------------ *)
(** ** The two-state toggle *)

(** C6: from the window as MainWindow.__init__ leaves it, every sequence
    of clicks on the two buttons runs without error and leaves either no
    mesh or exactly the one sphere; the mode (Empty or ShowingSphere) is
    the one of the last click (Empty when there is none), and the scene is
    the initial one, the sphere scene, or an empty white scene with the
    axes and no text, according to that click. *)
Theorem clicks_two_state (s0 : st) (bs : list button) :
  exists s2,
    run_clicks bs (snd (MainWindow_init s0)) = (Ok tt, s2) /\
    (meshes (plotter s2) = [] \/ meshes (plotter s2) = [sphere_actor]) /\
    mode_of (plotter s2) = Some (mode_after bs) /\
    match last_click bs with
    | None => plotter s2 = initial_scene
    | Some BtnSphere => plotter s2 = sphere_scene "white"
    | Some BtnClear => exists cam, plotter s2 = mk_scene [] true [] "white" cam
    end.
Proof.
  destruct (MainWindow_init_eq s0) as (s1 & -> & Hsc & _). cbn [snd].
  assert (Hbg : background (plotter s1) = "white") by (rewrite Hsc; reflexivity).
  destruct (run_clicks_scene bs s1 Hbg) as (s2 & E & _ & Hl).
  exists s2. split; [exact E|].
  unfold mode_after.
  destruct (last_click bs) as [[|]|].
  - rewrite Hl. repeat split. right. reflexivity.
  - destruct Hl as [cam Hl]. rewrite Hl. repeat split.
    + left. reflexivity.
    + exists cam. reflexivity.
  - subst s2. rewrite Hsc. repeat split. left. reflexivity.
Qed.

(* ------------------------------------------------------------------ *)
(** ** Purity of resource resolution *)

(** C8: get_resource_path has no effect on the state and its result
    depends only on the environment (sys._MEIPASS, __file__, the working
    directory); no step of the program changes that environment, so the
    application-level and the window-level resolutions of the icon give
    the same path. *)
Theorem get_resource_path_pure (s : st) (rel : string) (evs : list ui_event) :
  snd (get_resource_path rel s) = s /\
  (forall s', sys s' = sys s ->
     fst (get_resource_path rel s') = fst (get_resource_path rel s)) /\
  sys (snd (main_prog evs s)) = sys s /\
  fst (get_resource_path icon_rel (snd (win_base_setup (snd (app_setup s))))) =
  fst (get_resource_path icon_rel s).
Proof.
  split; [rewrite get_resource_path_eq; reflexivity|].
  split.
  { intros s' Hs. rewrite !get_resource_path_eq. cbn. rewrite Hs. reflexivity. }
  split; [apply keeps_sys_main_prog|].
  rewrite !get_resource_path_eq, app_setup_eq. reflexivity.
Qed.

(* ------------------------------------------------------------------ *)
(** ** Further properties of main.py *)

(** Events and canvas each button's callback produces. *)
Definition click_events (b : button) : list event :=
  match b with BtnSphere => plot_sphere_events | BtnClear => clear_plot_events end.

Definition click_scene (b : button) (sc : scene) : scene :=
  match b with
  | BtnSphere => sphere_scene (background sc)
  | BtnClear => mk_scene [] true [] "white" (camera_of sc)
  end.

Definition is_print (ev : event) : bool :=
  match ev with EvPrint _ => true | _ => false end.

Definition count_prints (tr : list event) : nat := length (filter is_print tr).

Lemma on_click_eq (b : button) (s : st) :
  on_click b s =
  (Ok tt, with_canvas s (trace s ++ click_events b) (click_scene b (plotter s))
            (plotter_closed s)).
Proof. destruct b; [apply plot_sphere_eq | apply clear_plot_eq]. Qed.

(** Fields a click leaves alone. *)
Definition same_but_canvas (s s' : st) : Prop :=
  sys s' = sys s /\ fs s' = fs s /\ app_style s' = app_style s /\
  app_icon s' = app_icon s /\ win_title s' = win_title s /\
  win_size s' = win_size s /\ win_icon s' = win_icon s /\
  plotter_closed s' = plotter_closed s.

Lemma run_clicks_eq (bs : list button) (s : st) :
  exists s2,
    run_clicks bs s = (Ok tt, s2) /\
    trace s2 = (trace s ++ concat (map click_events bs))%list /\
    same_but_canvas s s2.
Proof.
  revert s. induction bs as [|b rest IH]; intros s.
  - exists s. cbn. rewrite app_nil_r. repeat split.
  - cbn [run_clicks]. unfold bind at 1. rewrite on_click_eq.
    destruct (IH (with_canvas s (trace s ++ click_events b)
                    (click_scene b (plotter s)) (plotter_closed s)))
      as (s2 & E & Htr & Hf1 & Hf2 & Hf3 & Hf4 & Hf5 & Hf6 & Hf7 & Hf8).
    exists s2. rewrite E. split; [reflexivity|].
    cbn in Htr, Hf1, Hf2, Hf3, Hf4, Hf5, Hf6, Hf7, Hf8.
    split; [rewrite Htr; cbn; rewrite app_assoc; reflexivity|].
    repeat split; assumption.
Qed.

Lemma count_prints_app (l1 l2 : list event) :
  count_prints (l1 ++ l2) = count_prints l1 + count_prints l2.
Proof. unfold count_prints. rewrite filter_app, length_app. reflexivity. Qed.

Lemma count_close_app (l1 l2 : list event) :
  count_close (l1 ++ l2) = count_close l1 + count_close l2.
Proof. unfold count_close. rewrite filter_app, length_app. reflexivity. Qed.

Lemma app_exec_clicks (bs : list button) :
  app_exec (map Click bs) = run_clicks bs.
Proof.
  induction bs as [|b rest IH]; cbn; [reflexivity|]. rewrite IH. reflexivity.
Qed.

Lemma app_exec_close (bs : list button) (rest : list ui_event) (s : st) :
  app_exec (map Click bs ++ CloseRequest :: rest) s =
  bind (run_clicks bs) (fun _ => closeEvent) s.
Proof.
  revert s. induction bs as [|b bs' IH]; intros s.
  - reflexivity.
  - cbn [map app app_exec run_clicks]. unfold bind at 1 2 3.
    rewrite on_click_eq. apply IH.
Qed.

Lemma count_prints_clicks (bs : list button) :
  count_prints (concat (map click_events bs)) = length bs.
Proof.
  induction bs as [|b rest IH]; [reflexivity|].
  cbn [map concat length]. rewrite count_prints_app, IH.
  destruct b; reflexivity.
Qed.

Lemma count_close_clicks (bs : list button) :
  count_close (concat (map click_events bs)) = 0.
Proof.
  induction bs as [|b rest IH]; [reflexivity|].
  cbn [map concat]. rewrite count_close_app, IH.
  destruct b; reflexivity.
Qed.

(** Startup up to the event loop: trace, closed flag. *)
Lemma startup_eq (s : st) :
  exists s1,
    bind app_setup (fun _ => MainWindow_init) s = (Ok tt, s1) /\
    plotter_closed s1 = false /\
    count_close (trace s1) = count_close (trace s).
Proof.
  unfold bind at 1. rewrite app_setup_eq.
  match goal with |- context [MainWindow_init ?x] =>
    destruct (MainWindow_init_eq x) as (s1 & -> & _ & Hc & _ & _ & _ & _ & _ & Htr)
  end.
  exists s1. split; [reflexivity|]. split; [exact Hc|].
  rewrite Htr. cbn [trace]. rewrite !count_close_app.
  destruct (icon_exists _); cbn; lia.
Qed.


(** X1: an absolute argument is returned unchanged by get_resource_path,
    in both run modes ([os.path.join] drops the base). *)
Theorem get_resource_path_absolute (s : st) (p : string)
    (Habs : PosixPath.isabs p = true) :
  get_resource_path p s = (Ok p, s).
Proof.
  rewrite get_resource_path_eq. unfold resource_path, PosixPath.join.
  unfold PosixPath.isabs in Habs. rewrite Habs. reflexivity.
Qed.

Lemma get_resource_path_absolute_witness :
  PosixPath.isabs "/opt/icons/app.ico" = true /\
  get_resource_path "/opt/icons/app.ico" (st0 env_src []) =
  (Ok "/opt/icons/app.ico", st0 env_src []).
Proof.
  split; [reflexivity|]. apply get_resource_path_absolute. reflexivity.
Defined.

(** X2: in packaged mode neither [__file__] nor the working directory take
    part in resolution: two environments with the same [sys._MEIPASS]
    resolve every path alike. *)
Theorem resource_path_packaged_ignores_script (e1 e2 : sysenv) (d rel : string)
    (H1 : meipass e1 = Some d) (H2 : meipass e2 = Some d) :
  resource_path e1 rel = resource_path e2 rel.
Proof. unfold resource_path. rewrite H1, H2. reflexivity. Qed.

Lemma resource_path_packaged_ignores_script_witness :
  resource_path (mk_sysenv (Some "/tmp/_MEI1") "/a/main.py" "/a") icon_rel =
  resource_path (mk_sysenv (Some "/tmp/_MEI1") "main.py" "/b/c") icon_rel.
Proof.
  apply (resource_path_packaged_ignores_script _ _ "/tmp/_MEI1");
    reflexivity.
Defined.

(** X3: when the resolved icon exists, startup sets the application icon
    and the window icon to that same path and prints nothing; the trace
    holds only the canvas set-up of init_ui. *)
Theorem icon_present_startup (s : st) (Hex : icon_exists s = true) :
  exists s2,
    bind app_setup (fun _ => MainWindow_init) s = (Ok tt, s2) /\
    app_icon s2 = Some (icon_path_of s) /\
    win_icon s2 = Some (icon_path_of s) /\
    trace s2 = (trace s ++ init_ui_events)%list.
Proof.
  unfold bind at 1. rewrite app_setup_eq, Hex.
  match goal with |- context [MainWindow_init ?x] =>
    destruct (MainWindow_init_eq x)
      as (s2 & -> & _ & _ & _ & _ & Hai & _ & Hwi & Htr);
    assert (Hx : icon_exists x = true) by exact Hex;
    assert (Hp : icon_path_of x = icon_path_of s) by reflexivity;
    rewrite Hx, Hp in Hwi; rewrite Hx in Htr
  end.
  exists s2. rewrite Hai, Hwi, Htr, app_nil_l. repeat split.
Qed.

Lemma icon_present_startup_witness :
  icon_exists (st0 env_src ["/home/u/MCM/resources/icon.ico"]) = true /\
  exists s2,
    bind app_setup (fun _ => MainWindow_init)
      (st0 env_src ["/home/u/MCM/resources/icon.ico"]) = (Ok tt, s2) /\
    app_icon s2 = Some "/home/u/MCM/resources/icon.ico" /\
    win_icon s2 = Some "/home/u/MCM/resources/icon.ico" /\
    trace s2 = init_ui_events.
Proof.
  split; [reflexivity|].
  exact (icon_present_startup (st0 env_src ["/home/u/MCM/resources/icon.ico"])
           eq_refl).
Defined.


(** X5: a close request in the event loop ends the run: the events after
    it are never processed, the plotter is closed exactly once over the
    whole run, and the run ends with plotter.close() then event.accept(). *)
Theorem main_prog_close (bs : list button) (rest : list ui_event) (s : st) :
  main_prog (map Click bs ++ CloseRequest :: rest) s =
  main_prog (map Click bs ++ [CloseRequest]) s /\
  exists s2 pre,
    main_prog (map Click bs ++ CloseRequest :: rest) s = (Ok tt, s2) /\
    plotter_closed s2 = true /\
    trace s2 = (pre ++ [EvPlotter PClose; EvAccept])%list /\
    count_close (trace s2) = S (count_close (trace s)).
Proof.
  assert (Hm : forall r, main_prog (map Click bs ++ CloseRequest :: r) s =
           bind (bind app_setup (fun _ => MainWindow_init))
             (fun _ => bind (run_clicks bs) (fun _ => closeEvent)) s).
  { intros r. unfold main_prog, bind at 1 2 3 4.
    destruct (app_setup s) as [[[]|e] s'].
    - destruct (MainWindow_init s') as [[[]|e] s'']; [|reflexivity].
      apply app_exec_close.
    - reflexivity. }
  split; [rewrite !Hm; reflexivity|].
  rewrite Hm. destruct (startup_eq s) as (s1 & E1 & _ & Hc1).
  unfold bind at 1. rewrite E1.
  destruct (run_clicks_eq bs s1) as (s2 & E2 & Htr2 & _).
  unfold bind at 1. rewrite E2, closeEvent_eq.
  eexists. exists (trace s2). split; [reflexivity|].
  cbn [with_canvas trace plotter_closed].
  split; [reflexivity|]. split; [reflexivity|].
  rewrite count_close_app, Htr2, count_close_app, count_close_clicks, Hc1.
  cbn. lia.
Qed.

(** X6: without a close request the event loop only dispatches the clicks:
    the plotter is never closed and plotter.close() never called. *)
Theorem main_prog_clicks_keep_plotter_open (bs : list button) (s : st) :
  exists s2,
    main_prog (map Click bs) s = (Ok tt, s2) /\
    plotter_closed s2 = false /\
    count_close (trace s2) = count_close (trace s).
Proof.
  destruct (startup_eq s) as (s1 & E1 & Hcl1 & Hc1).
  assert (Hm : main_prog (map Click bs) s = run_clicks bs s1).
  { unfold main_prog. rewrite app_exec_clicks.
    revert E1. unfold bind. destruct (app_setup s) as [[[]|e] s'];
      [|discriminate]. destruct (MainWindow_init s') as [[[]|e] s''];
      [|discriminate]. intros E1; injection E1 as ->. reflexivity. }
  rewrite Hm. destruct (run_clicks_eq bs s1) as (s2 & E2 & Htr2 & Hf).
  exists s2. split; [exact E2|]. split.
  - destruct Hf as (_ & _ & _ & _ & _ & _ & _ & Hc). rewrite Hc. exact Hcl1.
  - rewrite Htr2, count_close_app, count_close_clicks, Hc1. lia.
Qed.

(** X7: clear_plot is idempotent on the scene: a second clear leaves the
    canvas as the first did. *)
Theorem clear_plot_idempotent_scene (s : st) :
  plotter (snd (clear_plot (snd (clear_plot s)))) =
  plotter (snd (clear_plot s)).
Proof. rewrite (clear_plot_eq s), clear_plot_eq. reflexivity. Qed.

(** X8: clear_plot does not move the camera: it keeps whatever camera the
    scene had, so after drawing the sphere and clearing, the camera still
    frames the removed sphere. *)
Theorem clear_plot_keeps_camera (s : st) :
  camera_of (plotter (snd (clear_plot s))) = camera_of (plotter s) /\
  camera_of (plotter (snd (clear_plot (snd (plot_sphere s))))) =
  CamFramed [Sphere (1 # 2)].
Proof.
  rewrite clear_plot_eq. split; [reflexivity|].
  rewrite plot_sphere_eq. reflexivity.
Qed.



(** X10: each button click prints exactly one console line and never calls
    plotter.close(); it changes only the trace and the canvas, never the
    environment, the files, the style, the icons, the title, the size or
    the closed flag. *)
Theorem run_clicks_output (bs : list button) (s : st) :
  exists s2,
    run_clicks bs s = (Ok tt, s2) /\
    count_prints (trace s2) = count_prints (trace s) + length bs /\
    count_close (trace s2) = count_close (trace s) /\
    same_but_canvas s s2.
Proof.
  destruct (run_clicks_eq bs s) as (s2 & E & Htr & Hf).
  exists s2. split; [exact E|].
  rewrite Htr, count_prints_app, count_close_app, count_prints_clicks,
    count_close_clicks.
  repeat split; try lia; apply Hf.
Qed.
